(** * GeneratedAssetSymbols.h

    A shallow embedding of the derived source
    [DerivedSources/GeneratedAssetSymbols.h] of the HighlanderHomes build.

    The header is kept as its text.  Its meaning is obtained the way a
    compiler obtains it: the text is cut into lines, every line is lexed,
    the preprocessor runs over the directives (conditional inclusion on
    [__has_attribute], object-like macros, [#import], [#undef]) and the
    surviving tokens are parsed as file-scope declarations.  The toolchain
    enters through one capability query, [has_attribute]. *)

From Stdlib Require Import String Ascii List.
From stdpp Require Import base option list gmap strings.

Open Scope string_scope.
Open Scope list_scope.

(** ** The source text *)

Module Source.

(** The double quote and the line feed, which cannot be written inside a
    string literal here. *)
Definition dq : string := String "034"%char "".
Definition lf : string := String "010"%char "".

(** The twelve lines of the file, in order. *)
Definition header_lines : list string :=
  [ "#import <Foundation/Foundation.h>";
    "";
    "#if __has_attribute(swift_private)";
    "#define AC_SWIFT_PRIVATE __attribute__((swift_private))";
    "#else";
    "#define AC_SWIFT_PRIVATE";
    "#endif";
    "";
    "/// The " +:+ dq +:+ "HighlanderLogo" +:+ dq +:+ " asset catalog image resource.";
    "static NSString * const ACImageNameHighlanderLogo AC_SWIFT_PRIVATE = @"
      +:+ dq +:+ "HighlanderLogo" +:+ dq +:+ ";";
    "";
    "#undef AC_SWIFT_PRIVATE" ].

(** The bytes of the file: the lines separated by line feeds, with no
    line feed after the last one. *)
Definition header_text : string := String.concat lf header_lines.

(** Physical lines of a text. *)
Fixpoint split_lines (cur : list ascii) (cs : list ascii) : list string :=
  match cs with
  | [] => [string_of_list_ascii (rev cur)]
  | c :: cs' =>
      if Ascii.eqb c "010"
      then string_of_list_ascii (rev cur) :: split_lines [] cs'
      else split_lines (c :: cur) cs'
  end.

Definition lines_of (text : string) : list string :=
  split_lines [] (list_ascii_of_string text).

End Source.

(** ** Lexing *)

Module Lexer.

Inductive token :=
| TIdent (s : string)
| TNumber (s : string)
| TPunct (c : ascii)
| TCString (s : string)        (* a C string literal *)
| TObjCString (s : string)     (* an Objective-C string literal *)
| TComment (s : string).       (* text after the two slashes *)

#[export] Instance token_eq_dec : EqDecision token.
Proof. solve_decision. Defined.

Definition in_range (lo hi : nat) (c : ascii) : bool :=
  let n := nat_of_ascii c in Nat.leb lo n && Nat.leb n hi.

Definition is_digit (c : ascii) : bool := in_range 48 57 c.

Definition is_word_char (c : ascii) : bool :=
  in_range 65 90 c || in_range 97 122 c || is_digit c || Ascii.eqb c "_".

Definition is_space (c : ascii) : bool :=
  Ascii.eqb c " " || Ascii.eqb c "009".

Inductive lex_mode :=
| InCode
| InWord (w : list ascii)
| InLiteral (objc : bool) (s : list ascii)
| AfterAt
| AfterSlash
| InComment (s : list ascii).

Definition text_of (rev_chars : list ascii) : string :=
  string_of_list_ascii (rev rev_chars).

(** A finished word is a number when it starts with a digit. *)
Definition word_token (w : list ascii) : token :=
  match rev w with
  | c :: _ => if is_digit c then TNumber (text_of w) else TIdent (text_of w)
  | [] => TIdent ""
  end.

Definition literal_token (objc : bool) (s : list ascii) : token :=
  if objc then TObjCString (text_of s) else TCString (text_of s).

(** First character of a token, read between tokens. *)
Definition start (c : ascii) : list token * lex_mode :=
  if is_space c then ([], InCode)
  else if is_word_char c then ([], InWord [c])
  else if Ascii.eqb c "034" then ([], InLiteral false [])
  else if Ascii.eqb c "@" then ([], AfterAt)
  else if Ascii.eqb c "/" then ([], AfterSlash)
  else ([TPunct c], InCode).

(** One logical line.  [None]: an unterminated literal, or a construct
    the header does not use (escape sequences, block comments). *)
Fixpoint lex (m : lex_mode) (cs : list ascii) : option (list token) :=
  match cs with
  | [] =>
      match m with
      | InCode => Some []
      | InWord w => Some [word_token w]
      | InLiteral _ _ => None
      | AfterAt => Some [TPunct "@"]
      | AfterSlash => Some [TPunct "/"]
      | InComment s => Some [TComment (text_of s)]
      end
  | c :: cs' =>
      match m with
      | InCode =>
          let '(ts, m') := start c in (ts ++.) <$> lex m' cs'
      | InWord w =>
          if is_word_char c then lex (InWord (c :: w)) cs'
          else let '(ts, m') := start c in
               ((word_token w :: ts) ++.) <$> lex m' cs'
      | InLiteral objc s =>
          if Ascii.eqb c "034" then (literal_token objc s ::.) <$> lex InCode cs'
          else if Ascii.eqb c "092" then None
          else lex (InLiteral objc (c :: s)) cs'
      | AfterAt =>
          if Ascii.eqb c "034" then lex (InLiteral true []) cs'
          else let '(ts, m') := start c in
               ((TPunct "@" :: ts) ++.) <$> lex m' cs'
      | AfterSlash =>
          if Ascii.eqb c "/" then lex (InComment []) cs'
          else if Ascii.eqb c "*" then None
          else let '(ts, m') := start c in
               ((TPunct "/" :: ts) ++.) <$> lex m' cs'
      | InComment s => lex (InComment (c :: s)) cs'
      end
  end.

Definition lex_line (l : string) : option (list token) :=
  lex InCode (list_ascii_of_string l).

Definition is_comment (t : token) : bool :=
  match t with TComment _ => true | _ => false end.

(** Comments count as white space for everything after lexing. *)
Definition strip_comments (ts : list token) : list token :=
  List.filter (fun t => negb (is_comment t)) ts.

Definition spelling (t : token) : string :=
  match t with
  | TIdent s | TNumber s => s
  | TPunct c => String c ""
  | TCString s => Source.dq +:+ s +:+ Source.dq
  | TObjCString s => "@" +:+ Source.dq +:+ s +:+ Source.dq
  | TComment s => "//" +:+ s
  end.

End Lexer.

Import Lexer.

(** ** Preprocessing *)

Module Preprocessor.

(** What the compiler answers to the header's one capability query,
    [__has_attribute].  The compilers that can read the header's [#import]
    all provide the query, so a toolchain is its answer to it. *)
Record toolchain := { has_attribute : string -> bool }.

(** Controlling expressions of [#if]. *)
Inductive pp_cond :=
| CHasAttribute (a : string)
| CDefined (n : string).

Inductive directive :=
| DImport (h : string)
| DIf (c : pp_cond)
| DElse
| DEndif
| DDefine (n : string) (body : list token)
| DUndef (n : string)
| DText (ts : list token).

(** The characters between [<] and the closing [>] of an import. *)
Fixpoint header_name (ts : list token) : option string :=
  match ts with
  | [] => None
  | TPunct c :: ts' =>
      if Ascii.eqb c ">"
      then match ts' with [] => Some "" | _ => None end
      else (String c) <$> header_name ts'
  | t :: ts' => (String.append (spelling t)) <$> header_name ts'
  end.

Definition parse_cond (ts : list token) : option pp_cond :=
  match ts with
  | [TIdent f; TPunct l; TIdent a; TPunct r] =>
      if Ascii.eqb l "(" && Ascii.eqb r ")"
      then if String.eqb f "__has_attribute" then Some (CHasAttribute a)
           else if String.eqb f "defined" then Some (CDefined a)
           else None
      else None
  | _ => None
  end.

(** A macro body that opens with a parenthesis would need the white
    space the lexer dropped to tell a function-like macro from an
    object-like one; the header has none, so it is refused. *)
Definition object_like (body : list token) : bool :=
  match body with
  | TPunct c :: _ => negb (Ascii.eqb c "(")
  | _ => true
  end.

Definition parse_hash (kw : string) (rest : list token) : option directive :=
  if String.eqb kw "import" then
    match rest with
    | TPunct c :: name => if Ascii.eqb c "<" then DImport <$> header_name name else None
    | _ => None
    end
  else if String.eqb kw "if" then DIf <$> parse_cond rest
  else if String.eqb kw "else" then
    match rest with [] => Some DElse | _ => None end
  else if String.eqb kw "endif" then
    match rest with [] => Some DEndif | _ => None end
  else if String.eqb kw "define" then
    match rest with
    | TIdent n :: body => if object_like body then Some (DDefine n body) else None
    | _ => None
    end
  else if String.eqb kw "undef" then
    match rest with [TIdent n] => Some (DUndef n) | _ => None end
  else None.

(** A line is a directive when its first token is [#]. *)
Definition parse_directive (ts : list token) : option directive :=
  match ts with
  | TPunct c :: rest =>
      if Ascii.eqb c "#"
      then match rest with
           | TIdent kw :: rest' => parse_hash kw rest'
           | _ => None
           end
      else Some (DText ts)
  | _ => Some (DText ts)
  end.

Definition parse_line (l : string) : option directive :=
  lex_line l ≫= fun ts => parse_directive (strip_comments ts).

Definition parse_text (text : string) : option (list directive) :=
  mapM parse_line (Source.lines_of text).

(** One open [#if]: whether the enclosing text was live, what the
    condition evaluated to, and whether its [#else] has been passed. *)
Record frame := Frame { f_outer : bool; f_cond : bool; f_else : bool }.

Record pp_state := PP {
  macros : gmap string (list token);
  conds : list frame;
  imports : list string;
  out : list token
}.

Definition frame_live (f : frame) : bool :=
  f_outer f && (if f_else f then negb (f_cond f) else f_cond f).

Definition live (st : pp_state) : bool :=
  match conds st with
  | [] => true
  | f :: _ => frame_live f
  end.

(** Object-like macro replacement with rescanning.  A macro is not
    replaced inside its own replacement, so every nested level works on
    a smaller table and [size m] levels suffice. *)
Fixpoint expand (n : nat) (m : gmap string (list token)) (ts : list token) : list token :=
  match n with
  | O => ts
  | S n' =>
      flat_map (fun t =>
        match t with
        | TIdent x =>
            match m !! x with
            | Some body => expand n' (delete x m) body
            | None => [t]
            end
        | _ => [t]
        end) ts
  end.

Definition expand_line (m : gmap string (list token)) (ts : list token) : list token :=
  expand (size m) m ts.

(** The tokens a controlling expression is written with. *)
Definition cond_tokens (c : pp_cond) : list token :=
  match c with
  | CHasAttribute a => [TIdent "__has_attribute"; TPunct "("; TIdent a; TPunct ")"]
  | CDefined n => [TIdent "defined"; TPunct "("; TIdent n; TPunct ")"]
  end.

(** Evaluation of a controlling expression.  The operand of [defined] is
    taken as written.  Every other token of the line undergoes macro
    replacement first, the name of the query and its operand included; the
    toolchain is asked about the attribute that is left, and a line that is
    no longer a query after replacement is an error. *)
Definition eval_cond (tc : toolchain) (m : gmap string (list token)) (c : pp_cond)
  : option bool :=
  match c with
  | CDefined n => Some (bool_decide (is_Some (m !! n)))
  | CHasAttribute _ =>
      match parse_cond (expand_line m (cond_tokens c)) with
      | Some (CHasAttribute a) => Some (has_attribute tc a)
      | _ => None
      end
  end.

(** [#import] brings a file in once; what Foundation itself declares is
    outside this header, the import is only recorded. *)
Definition add_import (h : string) (hs : list string) : list string :=
  if bool_decide (h ∈ hs) then hs else hs ++ [h].

Definition step (tc : toolchain) (st : pp_state) (d : directive) : option pp_state :=
  match d with
  | DIf c =>
      if live st
      then eval_cond tc (macros st) c ≫= fun b =>
           Some (PP (macros st) (Frame true b false :: conds st) (imports st) (out st))
      else Some (PP (macros st) (Frame false false false :: conds st)
                    (imports st) (out st))
  | DElse =>
      match conds st with
      | f :: fs =>
          if f_else f then None
          else Some (PP (macros st) (Frame (f_outer f) (f_cond f) true :: fs)
                        (imports st) (out st))
      | [] => None
      end
  | DEndif =>
      match conds st with
      | _ :: fs => Some (PP (macros st) fs (imports st) (out st))
      | [] => None
      end
  | DImport h =>
      Some (if live st
            then PP (macros st) (conds st) (add_import h (imports st)) (out st)
            else st)
  | DDefine n body =>
      Some (if live st
            then PP (<[n := body]> (macros st)) (conds st) (imports st) (out st)
            else st)
  | DUndef n =>
      Some (if live st
            then PP (delete n (macros st)) (conds st) (imports st) (out st)
            else st)
  | DText ts =>
      Some (if live st
            then PP (macros st) (conds st) (imports st)
                    (out st ++ expand_line (macros st) ts)
            else st)
  end.

Fixpoint run (tc : toolchain) (st : pp_state) (ds : list directive) : option pp_state :=
  match ds with
  | [] => Some st
  | d :: ds' => step tc st d ≫= fun st' => run tc st' ds'
  end.

(** The state in which a file is entered: the macros defined so far,
    no open conditional. *)
Definition enter (m : gmap string (list token)) : pp_state := PP m [] [] [].

(** A whole file; an [#if] still open at the end is an error. *)
Definition preprocess (tc : toolchain) (m : gmap string (list token)) (text : string)
  : option pp_state :=
  parse_text text ≫= fun ds =>
  run tc (enter m) ds ≫= fun st =>
  match conds st with [] => Some st | _ => None end.

End Preprocessor.

Import Preprocessor.

(** ** File-scope declarations *)

Module Decl.

Inductive storage_class := Static | Extern.

(** A type with its qualifier: [is_const] says whether an object of the
    type is itself [const].  In [T * const x] the pointer [x] is, in
    [const T * x] only what it points to. *)
Inductive ctype :=
| TNamed (n : string) (is_const : bool)
| TPointer (to : ctype) (is_const : bool).

Inductive initializer :=
| IObjCString (s : string)
| ICString (s : string)
| INil.

Record declaration := Declaration {
  d_storage : option storage_class;
  d_type : ctype;
  d_name : string;
  d_attrs : list string;
  d_init : option initializer
}.

(** What stands at file scope: a variable, or anything else (a function,
    a type, a prototype), kept as its tokens. *)
Inductive item :=
| IVar (d : declaration)
| IOther (ts : list token).

#[export] Instance storage_class_eq_dec : EqDecision storage_class.
Proof. solve_decision. Defined.
#[export] Instance ctype_eq_dec : EqDecision ctype.
Proof. solve_decision. Defined.
#[export] Instance initializer_eq_dec : EqDecision initializer.
Proof. solve_decision. Defined.
#[export] Instance declaration_eq_dec : EqDecision declaration.
Proof. solve_decision. Defined.

Definition is_punct (c : ascii) (t : token) : bool :=
  match t with TPunct c' => Ascii.eqb c c' | _ => false end.

(** Declarations end at a semicolon. *)
Fixpoint chunks (cur : list token) (ts : list token) : option (list (list token)) :=
  match ts with
  | [] => match cur with [] => Some [] | _ => None end
  | t :: ts' =>
      if is_punct ";" t then (rev cur ::.) <$> chunks [] ts'
      else chunks (t :: cur) ts'
  end.

Definition keyword (s : string) : bool :=
  String.eqb s "static" || String.eqb s "extern" || String.eqb s "const"
  || String.eqb s "__attribute__".

(** Storage class and leading qualifiers, up to and including the type
    name. *)
Fixpoint specifiers (sc : option storage_class) (cq : bool) (ts : list token)
  : option (option storage_class * ctype * list token) :=
  match ts with
  | TIdent s :: ts' =>
      if String.eqb s "static" then
        match sc with None => specifiers (Some Static) cq ts' | Some _ => None end
      else if String.eqb s "extern" then
        match sc with None => specifiers (Some Extern) cq ts' | Some _ => None end
      else if String.eqb s "const" then specifiers sc true ts'
      else if keyword s then None
      else Some (sc, TNamed s cq, ts')
  | _ => None
  end.

Definition qualify (ty : ctype) : ctype :=
  match ty with
  | TNamed n _ => TNamed n true
  | TPointer to _ => TPointer to true
  end.

(** Pointer declarators: each star makes a pointer to the type read so
    far, each [const] qualifies the type read so far. *)
Fixpoint pointers (ty : ctype) (ts : list token) : ctype * list token :=
  match ts with
  | TPunct c :: ts' =>
      if Ascii.eqb c "*" then pointers (TPointer ty false) ts' else (ty, ts)
  | TIdent s :: ts' =>
      if String.eqb s "const" then pointers (qualify ty) ts' else (ty, ts)
  | _ => (ty, ts)
  end.

(** A run of [__attribute__((name))]. *)
Fixpoint attributes (ts : list token) : list string * list token :=
  match ts with
  | TIdent a :: TPunct l1 :: TPunct l2 :: TIdent x :: TPunct r1 :: TPunct r2 :: ts' =>
      if String.eqb a "__attribute__" && Ascii.eqb l1 "(" && Ascii.eqb l2 "("
         && Ascii.eqb r1 ")" && Ascii.eqb r2 ")"
      then let '(xs, rest) := attributes ts' in (x :: xs, rest)
      else ([], ts)
  | _ => ([], ts)
  end.

Definition parse_init (ts : list token) : option (option initializer) :=
  match ts with
  | [] => Some None
  | [TPunct c; v] =>
      if Ascii.eqb c "=" then
        match v with
        | TObjCString s => Some (Some (IObjCString s))
        | TCString s => Some (Some (ICString s))
        | TIdent s => if String.eqb s "nil" then Some (Some INil) else None
        | _ => None
        end
      else None
  | _ => None
  end.

Definition parse_var (ts : list token) : option declaration :=
  specifiers None false ts ≫= fun '(sc, base, ts1) =>
  let '(ty, ts2) := pointers base ts1 in
  match ts2 with
  | TIdent n :: ts3 =>
      if keyword n then None
      else let '(attrs, ts4) := attributes ts3 in
           Declaration sc ty n attrs <$> parse_init ts4
  | _ => None
  end.

Definition parse_item (ts : list token) : item :=
  match parse_var ts with
  | Some d => IVar d
  | None => IOther ts
  end.

Definition parse_items (ts : list token) : option (list item) :=
  map parse_item <$> chunks [] ts.

Definition variables (items : list item) : list declaration :=
  omap (fun i => match i with IVar d => Some d | IOther _ => None end) items.

Definition find_var (n : string) (ds : list declaration) : option declaration :=
  List.find (fun d => String.eqb (d_name d) n) ds.

(** Whether the declared object itself is [const]. *)
Definition object_const (d : declaration) : bool :=
  match d_type d with
  | TNamed _ c | TPointer _ c => c
  end.

(** Values of the initialisers the header can carry.  An object of
    static storage duration without initialiser starts as [nil]. *)
Inductive value :=
| VNil
| VNSString (s : string)
| VCString (s : string).

#[export] Instance value_eq_dec : EqDecision value.
Proof. solve_decision. Defined.

Definition eval_init (i : option initializer) : value :=
  match i with
  | Some (IObjCString s) => VNSString s
  | Some (ICString s) => VCString s
  | Some INil | None => VNil
  end.

Inductive visibility := SwiftPrivate | SwiftDefault.

Definition visibility_of (d : declaration) : visibility :=
  if bool_decide ("swift_private" ∈ d_attrs d) then SwiftPrivate else SwiftDefault.

Inductive linkage := Internal | External.

(** Linkage of a file-scope object: internal exactly when declared
    [static]. *)
Definition linkage_of (d : declaration) : linkage :=
  match d_storage d with
  | Some Static => Internal
  | Some Extern | None => External
  end.

Definition initialised (d : declaration) : bool :=
  match d_init d with Some _ => true | None => false end.

(** Two declarations of one name that both carry an initialiser: a
    redefinition, which the compiler rejects. *)
Fixpoint redefinition (ds : list declaration) : bool :=
  match ds with
  | [] => false
  | d :: ds' =>
      initialised d
      && existsb (fun d' => String.eqb (d_name d') (d_name d) && initialised d') ds'
      || redefinition ds'
  end.

End Decl.

Import Decl.

(** ** The translation unit of the header *)

Record translation_unit := Unit {
  u_items : list item;
  u_macros : gmap string (list token);
  u_imports : list string
}.

(** Compiling a text entered with the macro table [m].  A unit in which
    one name is defined twice with an initialiser is rejected. *)
Definition compile (tc : toolchain) (m : gmap string (list token)) (text : string)
  : option translation_unit :=
  preprocess tc m text ≫= fun st =>
  parse_items (out st) ≫= fun items =>
  if redefinition (variables items) then None
  else Some (Unit items (macros st) (imports st)).

(** The header compiled on its own. *)
Definition header_unit (tc : toolchain) : option translation_unit :=
  compile tc ∅ Source.header_text.

Definition header_decls (tc : toolchain) : list declaration :=
  match header_unit tc with
  | Some u => variables (u_items u)
  | None => []
  end.

(** The two names the header introduces, as the compiler sees them. *)

Definition mentions (n : string) (d : directive) : bool :=
  match d with
  | DText ts => bool_decide (TIdent n ∈ ts)
  | _ => false
  end.

(** The preprocessor state in which the first live line using [n] is
    reached. *)
Fixpoint run_to_use (tc : toolchain) (n : string) (st : pp_state) (ds : list directive)
  : option pp_state :=
  match ds with
  | [] => None
  | d :: ds' =>
      if mentions n d && live st then Some st
      else step tc st d ≫= fun st' => run_to_use tc n st' ds'
  end.

(** What the macro [AC_SWIFT_PRIVATE] is replaced by where the header
    uses it. *)
Definition AC_SWIFT_PRIVATE (tc : toolchain) : option (list token) :=
  parse_text Source.header_text ≫= fun ds =>
  run_to_use tc "AC_SWIFT_PRIVATE" (enter ∅) ds ≫= fun st =>
  Some (expand_line (macros st) [TIdent "AC_SWIFT_PRIVATE"]).

(** The declaration of the constant in the header's unit, and its value. *)
Definition ACImageNameHighlanderLogo_decl (tc : toolchain) : option declaration :=
  find_var "ACImageNameHighlanderLogo" (header_decls tc).

Definition ACImageNameHighlanderLogo (tc : toolchain) : option value :=
  (fun d => eval_init (d_init d)) <$> ACImageNameHighlanderLogo_decl tc.

(** ** Documentation comments *)

Module Doc.

(** The text between the first pair of double quotes. *)
Fixpoint quoted (inside : bool) (acc : list ascii) (cs : list ascii) : option string :=
  match cs with
  | [] => None
  | c :: cs' =>
      if Ascii.eqb c "034"
      then if inside then Some (text_of acc) else quoted true [] cs'
      else quoted inside (if inside then c :: acc else acc) cs'
  end.

(** A line that is one three-slash comment. *)
Definition doc_comment (l : string) : option string :=
  match lex_line l with
  | Some [TComment (String c s)] => if Ascii.eqb c "/" then Some s else None
  | _ => None
  end.

(** The catalog resources the generator names in the documentation
    comments, in file order. *)
Definition resource_names (text : string) : list string :=
  omap (fun l => doc_comment l ≫= fun s => quoted false [] (list_ascii_of_string s))
       (Source.lines_of text).

End Doc.

(** ** Code that uses the unit *)

Module Runtime.

Inductive expr :=
| ELit (v : value)
| EVar (x : string).

(** An assignment to a file-scope object, or a use of a value (an
    argument of a call) that stores nothing. *)
Inductive stmt :=
| SAssign (x : string) (e : expr)
| SUse (e : expr).

(** Objects with static storage start with their initialisers; of two
    declarations of one name the first is the one in scope. *)
Definition initial (ds : list declaration) : gmap string value :=
  foldr (fun d s => <[d_name d := eval_init (d_init d)]> s) ∅ ds.

Definition eval (s : gmap string value) (e : expr) : option value :=
  match e with
  | ELit v => Some v
  | EVar x => s !! x
  end.

Definition declared (ds : list declaration) (x : string) : bool :=
  match find_var x ds with Some _ => true | None => false end.

(** The constraint on assignment: the left operand is a modifiable
    lvalue, a declared object whose type is not [const]. *)
Definition assignable (ds : list declaration) (x : string) : bool :=
  match find_var x ds with
  | Some d => negb (object_const d)
  | None => false
  end.

Definition expr_ok (ds : list declaration) (e : expr) : bool :=
  match e with
  | ELit _ => true
  | EVar x => declared ds x
  end.

Definition stmt_ok (ds : list declaration) (st : stmt) : bool :=
  match st with
  | SAssign x e => assignable ds x && expr_ok ds e
  | SUse e => expr_ok ds e
  end.

(** The programs the compiler accepts against the declarations [ds]. *)
Definition accepted (ds : list declaration) (p : list stmt) : bool :=
  forallb (stmt_ok ds) p.

Definition exec_stmt (s : gmap string value) (st : stmt) : option (gmap string value) :=
  match st with
  | SAssign x e => eval s e ≫= fun v => Some (<[x := v]> s)
  | SUse e => eval s e ≫= fun _ => Some s
  end.

(** The store at every point of an execution: before the first
    statement and after each one. *)
Fixpoint states (s : gmap string value) (p : list stmt) : list (gmap string value) :=
  s :: match p with
       | [] => []
       | st :: p' =>
           match exec_stmt s st with
           | Some s' => states s' p'
           | None => []
           end
       end.

End Runtime.

(** ** Linking *)

Module Linker.

(** A declaration that also defines its object: everything but an
    [extern] declaration without initialiser. *)
Definition defines (d : declaration) : bool :=
  match d_storage d, d_init d with
  | Some Extern, None => false
  | _, _ => true
  end.

Definition is_external (d : declaration) : bool :=
  match linkage_of d with External => true | Internal => false end.

(** Symbols an object file offers to the linker, and the ones it keeps
    to itself. *)
Definition exports (ds : list declaration) : list string :=
  d_name <$> List.filter (fun d => is_external d && defines d) ds.

Definition locals (ds : list declaration) : list string :=
  d_name <$> List.filter (fun d => negb (is_external d)) ds.

(** Symbols offered by two different object files. *)
Fixpoint duplicate_symbols (objs : list (list string)) : list string :=
  match objs with
  | [] => []
  | o :: rest =>
      List.filter (fun s => bool_decide (s ∈ concat rest)) o ++ duplicate_symbols rest
  end.

Inductive link_result :=
| Linked
| DuplicateSymbols (names : list string).

Definition link (objs : list (list string)) : link_result :=
  match duplicate_symbols objs with
  | [] => Linked
  | names => DuplicateSymbols names
  end.

End Linker.

(** ** Auxiliary definitions for the statements *)

(** A toolchain that knows [swift_private] and one that knows no
    attribute at all. *)
Definition swift_toolchain : toolchain :=
  {| has_attribute := fun a => String.eqb a "swift_private" |}.

Definition plain_toolchain : toolchain :=
  {| has_attribute := fun _ => false |}.

(** The tokens of [__attribute__((swift_private))]. *)
Definition swift_private_attribute : list token :=
  [TIdent "__attribute__"; TPunct "("; TPunct "("; TIdent "swift_private";
   TPunct ")"; TPunct ")"].

Definition identifiers (ts : list token) : list string :=
  omap (fun t => match t with TIdent x => Some x | _ => None end) ts.

(** The identifiers of the controlling expressions that undergo macro
    replacement. *)
Definition queried (ds : list directive) : list string :=
  flat_map (fun d => match d with
                     | DIf (CHasAttribute a) => identifiers (cond_tokens (CHasAttribute a))
                     | _ => []
                     end) ds.

(** The identifiers a file writes in its controlling expressions, in its
    text lines and in the bodies of its macros, without the names of the
    macros it defines itself. *)
Definition written (ds : list directive) : list string :=
  let own := omap (fun d => match d with DDefine n _ => Some n | _ => None end) ds in
  List.filter (fun x => negb (bool_decide (x ∈ own)))
    (flat_map (fun d => match d with
                        | DText ts | DDefine _ ts => identifiers ts
                        | DIf _ => queried [d]
                        | _ => []
                        end) ds).

(** A macro table that leaves the header's capability query alone: none
    of the identifiers of its [#if] line is a macro. *)
Definition query_intact (m : gmap string (list token)) : bool :=
  match parse_text Source.header_text with
  | Some ds => forallb (fun x => bool_decide (m !! x = None)) (queried ds)
  | None => false
  end.

(** A macro table that leaves the words of the header alone. *)
Definition clean (m : gmap string (list token)) : bool :=
  match parse_text Source.header_text with
  | Some ds => forallb (fun x => bool_decide (m !! x = None)) (written ds)
  | None => false
  end.

(** A text line that is not blank, the only kind of line that can
    declare something. *)
Definition declares (d : directive) : bool :=
  match d with
  | DText (_ :: _) => true
  | _ => false
  end.

(** Macros of an including file: a debug flag, and a macro that happens
    to carry the name of the header's helper. *)
Definition includer_macros : gmap string (list token) :=
  <["DEBUG" := [TNumber "1"]]> (<["AC_SWIFT_PRIVATE" := [TIdent "extern"]]> ∅).

(** Code of an including file: a string variable of its own, set from
    the constant and then used. *)
Definition client_decls : list declaration :=
  [Declaration (Some Static) (TPointer (TNamed "NSString" false) false)
     "currentImage" [] None].

Definition client_program : list Runtime.stmt :=
  [Runtime.SAssign "currentImage" (Runtime.EVar "ACImageNameHighlanderLogo");
   Runtime.SUse (Runtime.EVar "currentImage");
   Runtime.SAssign "currentImage" (Runtime.ELit VNil)].

(** The text of the header read twice in a row, as a plain textual
    inclusion repeated would present it. *)
Definition header_twice : string :=
  Source.header_text +:+ Source.lf +:+ Source.header_text.

(** A preprocessor state inside a conditional block that was not taken,
    with the macros of the including file. *)
Definition dead_state : pp_state :=
  PP includer_macros [Frame true false false] ["UIKit/UIKit.h"] [TIdent "int"].

(** Macros of an including file that has defined [swift_private] away. *)
Definition broken_macros : gmap string (list token) :=
  <["swift_private" := []]> ∅.

(** A toolchain that knows [unused] and not [swift_private]. *)
Definition unused_toolchain : toolchain :=
  {| has_attribute := fun a => String.eqb a "unused" |}.


Definition without_attrs (d : declaration) : declaration :=
  Declaration (d_storage d) (d_type d) (d_name d) [] (d_init d).

Import Runtime Linker.

(** * Properties *)

(** The text is the file: its size, its lines, and what the lexer makes
    of the declaration. *)
Example header_size : String.length Source.header_text = 332.
Proof. reflexivity. Qed.

Example header_lines_of_text : Source.lines_of Source.header_text = Source.header_lines.
Proof. vm_compute. reflexivity. Qed.

Example lex_declaration :
  (Source.header_lines !! 9) ≫= lex_line
  = Some [TIdent "static"; TIdent "NSString"; TPunct "*"; TIdent "const";
          TIdent "ACImageNameHighlanderLogo"; TIdent "AC_SWIFT_PRIVATE";
          TPunct "="; TObjCString "HighlanderLogo"; TPunct ";"].
Proof. vm_compute. reflexivity. Qed.

Example unit_with_swift_private :
  header_unit swift_toolchain
  = Some (Unit [IVar (Declaration (Some Static)
                        (TPointer (TNamed "NSString" false) true)
                        "ACImageNameHighlanderLogo" ["swift_private"]
                        (Some (IObjCString "HighlanderLogo")))]
               ∅ ["Foundation/Foundation.h"]).
Proof. vm_compute. reflexivity. Qed.

Example unit_without_swift_private :
  header_unit plain_toolchain
  = Some (Unit [IVar (Declaration (Some Static)
                        (TPointer (TNamed "NSString" false) true)
                        "ACImageNameHighlanderLogo" []
                        (Some (IObjCString "HighlanderLogo")))]
               ∅ ["Foundation/Foundation.h"]).
Proof. vm_compute. reflexivity. Qed.

(** A table that redefines a word of the header is not clean, and the
    declaration then reads differently: the statements below about
    inclusion assume a clean table. *)
Example redefined_word :
  clean (<["static" := [TIdent "extern"]]> ∅) = false
  /\ (u_items <$> compile plain_toolchain (<["static" := [TIdent "extern"]]> ∅)
                    Source.header_text)
     = Some [IVar (Declaration (Some Extern)
                     (TPointer (TNamed "NSString" false) true)
                     "ACImageNameHighlanderLogo" []
                     (Some (IObjCString "HighlanderLogo")))].
Proof. split; vm_compute; reflexivity. Qed.

(** The capability query undergoes macro replacement.  A table that
    defines [__has_attribute] as a number is not clean and makes line 3 an
    error; one that defines [swift_private] as [unused] redirects both the
    query and the attribute that is attached. *)
Example query_spoilt :
  clean (<["__has_attribute" := [TNumber "1"]]> ∅) = false
  /\ compile swift_toolchain (<["__has_attribute" := [TNumber "1"]]> ∅)
       Source.header_text = None.
Proof. split; vm_compute; reflexivity. Qed.

Example query_redirected :
  (u_items <$> compile unused_toolchain (<["swift_private" := [TIdent "unused"]]> ∅)
                 Source.header_text)
  = Some [IVar (Declaration (Some Static)
                  (TPointer (TNamed "NSString" false) true)
                  "ACImageNameHighlanderLogo" ["unused"]
                  (Some (IObjCString "HighlanderLogo")))]
  /\ (u_items <$> compile swift_toolchain (<["swift_private" := [TIdent "unused"]]> ∅)
                    Source.header_text)
     = Some [IVar (Declaration (Some Static)
                     (TPointer (TNamed "NSString" false) true)
                     "ACImageNameHighlanderLogo" []
                     (Some (IObjCString "HighlanderLogo")))].
Proof. split; vm_compute; reflexivity. Qed.

Lemma parse_header :
  parse_text Source.header_text =
  Some [ DImport "Foundation/Foundation.h";
         DText [];
         DIf (CHasAttribute "swift_private");
         DDefine "AC_SWIFT_PRIVATE" swift_private_attribute;
         DElse;
         DDefine "AC_SWIFT_PRIVATE" [];
         DEndif;
         DText [];
         DText [];
         DText [TIdent "static"; TIdent "NSString"; TPunct "*"; TIdent "const";
                TIdent "ACImageNameHighlanderLogo"; TIdent "AC_SWIFT_PRIVATE";
                TPunct "="; TObjCString "HighlanderLogo"; TPunct ";"];
         DText [];
         DUndef "AC_SWIFT_PRIVATE" ].
Proof. vm_compute. reflexivity. Qed.

Lemma expand_nil n m : expand n m [] = [].
Proof. destruct n; reflexivity. Qed.

Lemma expand_line_nil m : expand_line m [] = [].
Proof. apply expand_nil. Qed.

(** Tokens none of whose identifiers is a macro pass through unchanged. *)
Lemma expand_untouched n m ts :
  Forall (fun x => m !! x = None) (identifiers ts) -> expand n m ts = ts.
Proof.
  destruct n as [|n]; [reflexivity|].
  cbn [expand].
  induction ts as [|t ts IH]; intros H; [reflexivity|].
  cbn [flat_map].
  destruct t as [x| | | | |]; cbn [identifiers omap list_omap] in H;
    try (rewrite (IH H); reflexivity).
  change (identifiers (TIdent x :: ts)) with (x :: identifiers ts) in H.
  inversion H as [|? ? Hx Hts]; subst.
  rewrite Hx, (IH Hts). reflexivity.
Qed.

Lemma expand_app n m ts1 ts2 :
  expand (S n) m (ts1 ++ ts2) = expand (S n) m ts1 ++ expand (S n) m ts2.
Proof. cbn [expand]. apply flat_map_app. Qed.

(** One use of a macro whose body is untouched by the rest of the table. *)
Lemma expand_one m x body :
  Forall (fun y => m !! y = None) (identifiers body) ->
  expand_line (<[x := body]> m) [TIdent x] = body.
Proof.
  intros Hb. unfold expand_line.
  destruct (size (<[x := body]> m)) as [|n] eqn:Hn.
  - apply map_size_empty_inv in Hn.
    apply (f_equal (fun t => t !! x)) in Hn.
    rewrite lookup_insert_eq, lookup_empty in Hn. discriminate.
  - cbn [expand flat_map]. rewrite lookup_insert_eq, app_nil_r.
    apply expand_untouched.
    eapply Forall_impl; [exact Hb|].
    intros y Hy. cbn beta in Hy |- *.
    rewrite lookup_delete. destruct (decide (x = y)); [reflexivity|].
    rewrite lookup_insert_ne by assumption. exact Hy.
Qed.

Lemma expand_around m x body pre post :
  x ∉ identifiers pre -> x ∉ identifiers post ->
  Forall (fun y => m !! y = None) (identifiers pre) ->
  Forall (fun y => m !! y = None) (identifiers post) ->
  Forall (fun y => m !! y = None) (identifiers body) ->
  expand_line (<[x := body]> m) (pre ++ TIdent x :: post) = pre ++ body ++ post.
Proof.
  intros Hpre Hpost Fpre Fpost Fbody.
  assert (Hshift : forall ts, x ∉ identifiers ts ->
            Forall (fun y => m !! y = None) (identifiers ts) ->
            Forall (fun y => <[x := body]> m !! y = None) (identifiers ts)).
  { intros ts Hx Hts. rewrite Forall_forall in Hts |- *.
    intros y Hy. rewrite lookup_insert_ne.
    - apply Hts, Hy.
    - intros ->. apply Hx, Hy. }
  pose proof (expand_one m x body Fbody) as Hone.
  unfold expand_line in *.
  destruct (size (<[x := body]> m)) as [|n] eqn:Hn.
  - apply map_size_empty_inv in Hn.
    apply (f_equal (fun t => t !! x)) in Hn.
    rewrite lookup_insert_eq, lookup_empty in Hn. discriminate.
  - change (pre ++ TIdent x :: post) with (pre ++ [TIdent x] ++ post).
    rewrite !expand_app, Hone.
    rewrite (expand_untouched _ _ pre) by (apply Hshift; assumption).
    rewrite (expand_untouched _ _ post) by (apply Hshift; assumption).
    reflexivity.
Qed.

(** With the two identifiers of the query left alone, the controlling
    expression of the header asks the toolchain about [swift_private]. *)
Lemma eval_query tc m :
  m !! "__has_attribute" = None ->
  m !! "swift_private" = None ->
  eval_cond tc m (CHasAttribute "swift_private")
  = Some (has_attribute tc "swift_private").
Proof.
  intros H1 H2. unfold eval_cond, expand_line.
  rewrite expand_untouched; [reflexivity|].
  cbn. repeat constructor; assumption.
Qed.

Lemma query_words m :
  query_intact m = true ->
  m !! "__has_attribute" = None /\ m !! "swift_private" = None.
Proof.
  unfold query_intact. rewrite parse_header.
  set (w := queried _). vm_compute in w. subst w.
  cbn [forallb]. rewrite !andb_true_iff, !bool_decide_eq_true. tauto.
Qed.

Ltac pp_steps Hq Hb :=
  repeat (cbn [run step mbind option_bind live conds frame_live f_outer f_cond
               f_else macros imports out andb negb app];
          rewrite ?Hq, ?Hb, ?expand_line_nil, ?app_nil_r).

(** The preprocessor's run over the header, entered with a macro table
    that leaves the query alone: the import is recorded, the conditional
    is closed, the declaration line is the only output, and
    [AC_SWIFT_PRIVATE] is gone. *)
Lemma run_header tc m :
  m !! "__has_attribute" = None ->
  m !! "swift_private" = None ->
  parse_text Source.header_text ≫= run tc (enter m) =
  Some (PP (delete "AC_SWIFT_PRIVATE" m) [] ["Foundation/Foundation.h"]
           (expand_line
              (<["AC_SWIFT_PRIVATE" :=
                   if has_attribute tc "swift_private"
                   then swift_private_attribute else []]> m)
              [TIdent "static"; TIdent "NSString"; TPunct "*"; TIdent "const";
               TIdent "ACImageNameHighlanderLogo"; TIdent "AC_SWIFT_PRIVATE";
               TPunct "="; TObjCString "HighlanderLogo"; TPunct ";"])).
Proof.
  intros H1 H2. pose proof (eval_query tc m H1 H2) as Hq.
  rewrite parse_header. cbn [mbind option_bind]. unfold enter.
  destruct (has_attribute tc "swift_private") eqn:Hb;
    pp_steps Hq Hb;
    rewrite delete_insert_eq;
    change (add_import "Foundation/Foundation.h" []) with ["Foundation/Foundation.h"];
    reflexivity.
Qed.

Lemma preprocess_header tc m :
  m !! "__has_attribute" = None ->
  m !! "swift_private" = None ->
  preprocess tc m Source.header_text =
  Some (PP (delete "AC_SWIFT_PRIVATE" m) [] ["Foundation/Foundation.h"]
           (expand_line
              (<["AC_SWIFT_PRIVATE" :=
                   if has_attribute tc "swift_private"
                   then swift_private_attribute else []]> m)
              [TIdent "static"; TIdent "NSString"; TPunct "*"; TIdent "const";
               TIdent "ACImageNameHighlanderLogo"; TIdent "AC_SWIFT_PRIVATE";
               TPunct "="; TObjCString "HighlanderLogo"; TPunct ";"])).
Proof.
  intros H1 H2. unfold preprocess.
  pose proof (run_header tc m H1 H2) as H.
  destruct (parse_text Source.header_text) as [ds|]; [|discriminate].
  cbn [mbind option_bind] in H |- *. rewrite H. reflexivity.
Qed.

Lemma clean_words m :
  clean m = true ->
  Forall (fun x => m !! x = None)
    ["__has_attribute"; "swift_private"; "__attribute__"; "swift_private";
     "static"; "NSString"; "const"; "ACImageNameHighlanderLogo"].
Proof.
  unfold clean. rewrite parse_header.
  set (w := written _). vm_compute in w. subst w.
  intros H. rewrite forallb_forall in H.
  apply Forall_forall. intros x Hx.
  apply list_elem_of_In, H in Hx. apply bool_decide_eq_true in Hx. exact Hx.
Qed.

Lemma parse_declaration_line (b : bool) :
  parse_items
    ([TIdent "static"; TIdent "NSString"; TPunct "*"; TIdent "const";
      TIdent "ACImageNameHighlanderLogo"]
     ++ (if b then swift_private_attribute else [])
     ++ [TPunct "="; TObjCString "HighlanderLogo"; TPunct ";"]) =
  Some [IVar (Declaration (Some Static) (TPointer (TNamed "NSString" false) true)
                "ACImageNameHighlanderLogo"
                (if b then ["swift_private"] else [])
                (Some (IObjCString "HighlanderLogo")))].
Proof. destruct b; vm_compute; reflexivity. Qed.

(** Compiling the header after any text that left the table [m] behind. *)
Lemma compile_header tc m :
  clean m = true ->
  compile tc m Source.header_text =
  Some (Unit [IVar (Declaration (Some Static) (TPointer (TNamed "NSString" false) true)
                      "ACImageNameHighlanderLogo"
                      (if has_attribute tc "swift_private" then ["swift_private"] else [])
                      (Some (IObjCString "HighlanderLogo")))]
             (delete "AC_SWIFT_PRIVATE" m)
             ["Foundation/Foundation.h"]).
Proof.
  intros Hm. apply clean_words in Hm.
  repeat (let H := fresh "Hw" in
          inversion Hm as [|? ? H Hm']; subst; clear Hm; rename Hm' into Hm).
  clear Hm.
  unfold compile. rewrite preprocess_header by assumption.
  cbn [mbind option_bind out macros imports].
  change [TIdent "static"; TIdent "NSString"; TPunct "*"; TIdent "const";
          TIdent "ACImageNameHighlanderLogo"; TIdent "AC_SWIFT_PRIVATE";
          TPunct "="; TObjCString "HighlanderLogo"; TPunct ";"]
    with ([TIdent "static"; TIdent "NSString"; TPunct "*"; TIdent "const";
           TIdent "ACImageNameHighlanderLogo"]
          ++ TIdent "AC_SWIFT_PRIVATE"
          :: [TPunct "="; TObjCString "HighlanderLogo"; TPunct ";"]).
  rewrite expand_around.
  - rewrite parse_declaration_line. reflexivity.
  - vm_compute. intros H. repeat (inversion H as [|? ? ? H']; subst; clear H; rename H' into H).
  - vm_compute. intros H. inversion H.
  - repeat constructor; assumption.
  - constructor.
  - destruct (has_attribute tc "swift_private"); repeat constructor; assumption.
Qed.

Lemma header_unit_spec tc :
  header_unit tc =
  Some (Unit [IVar (Declaration (Some Static) (TPointer (TNamed "NSString" false) true)
                      "ACImageNameHighlanderLogo"
                      (if has_attribute tc "swift_private" then ["swift_private"] else [])
                      (Some (IObjCString "HighlanderLogo")))]
             ∅ ["Foundation/Foundation.h"]).
Proof.
  unfold header_unit. rewrite compile_header by (vm_compute; reflexivity).
  rewrite delete_empty. reflexivity.
Qed.

Lemma header_decls_spec tc :
  header_decls tc =
  [Declaration (Some Static) (TPointer (TNamed "NSString" false) true)
     "ACImageNameHighlanderLogo"
     (if has_attribute tc "swift_private" then ["swift_private"] else [])
     (Some (IObjCString "HighlanderLogo"))].
Proof. unfold header_decls. rewrite header_unit_spec. reflexivity. Qed.

Lemma constant_decl_spec tc :
  ACImageNameHighlanderLogo_decl tc =
  Some (Declaration (Some Static) (TPointer (TNamed "NSString" false) true)
          "ACImageNameHighlanderLogo"
          (if has_attribute tc "swift_private" then ["swift_private"] else [])
          (Some (IObjCString "HighlanderLogo"))).
Proof.
  unfold ACImageNameHighlanderLogo_decl. rewrite header_decls_spec. reflexivity.
Qed.

Lemma constant_value_spec tc :
  ACImageNameHighlanderLogo tc = Some (VNSString "HighlanderLogo").
Proof.
  unfold ACImageNameHighlanderLogo. rewrite constant_decl_spec. reflexivity.
Qed.

Lemma resource_names_spec :
  Doc.resource_names Source.header_text = ["HighlanderLogo"].
Proof. vm_compute. reflexivity. Qed.

(** ** The constant and its value *)

(** C1: whatever the toolchain, the constant [ACImageNameHighlanderLogo]
    has the value "HighlanderLogo", and that string is the catalog resource
    named in the documentation comment the generator wrote above it. *)
Theorem value_is_resource_name tc :
  exists r,
    Doc.resource_names Source.header_text = [r]
    /\ ACImageNameHighlanderLogo tc = Some (VNSString r)
    /\ r = "HighlanderLogo".
Proof.
  exists "HighlanderLogo". rewrite resource_names_spec, constant_value_spec.
  repeat split.
Qed.

(** C2: [AC_SWIFT_PRIVATE] is a switch with two outcomes.  Where the
    toolchain reports the [swift_private] attribute the macro is replaced
    by [__attribute__((swift_private))] and the constant is restricted to
    its module; where it does not, the macro is replaced by nothing and the
    constant has default visibility.  There is no third replacement. *)
Theorem swift_private_switch tc :
  AC_SWIFT_PRIVATE tc
  = Some (if has_attribute tc "swift_private" then swift_private_attribute else [])
  /\ (visibility_of <$> ACImageNameHighlanderLogo_decl tc)
     = Some (if has_attribute tc "swift_private" then SwiftPrivate else SwiftDefault)
  /\ (AC_SWIFT_PRIVATE tc = Some swift_private_attribute \/ AC_SWIFT_PRIVATE tc = Some []).
Proof.
  assert (H : AC_SWIFT_PRIVATE tc
              = Some (if has_attribute tc "swift_private"
                      then swift_private_attribute else [])).
  { destruct tc as [ha]. vm_compute.
    destruct (ha "swift_private"); reflexivity. }
  split; [exact H|]. split.
  - rewrite constant_decl_spec.
    destruct (has_attribute tc "swift_private"); reflexivity.
  - rewrite H. destruct (has_attribute tc "swift_private"); [left|right]; reflexivity.
Qed.

(** C3: the header declares exactly one entity, the string constant
    [ACImageNameHighlanderLogo] of type [NSString * const].  Of its lines
    one alone is a declaration; the others are the import, the macro guard
    with its two definitions, the [#undef], and blank or comment lines. *)
Theorem single_declaration tc :
  (u_items <$> header_unit tc)
  = Some [IVar (Declaration (Some Static) (TPointer (TNamed "NSString" false) true)
                  "ACImageNameHighlanderLogo"
                  (if has_attribute tc "swift_private" then ["swift_private"] else [])
                  (Some (IObjCString "HighlanderLogo")))]
  /\ (u_imports <$> header_unit tc) = Some ["Foundation/Foundation.h"]
  /\ (List.filter declares <$> parse_text Source.header_text)
     = Some [DText [TIdent "static"; TIdent "NSString"; TPunct "*"; TIdent "const";
                    TIdent "ACImageNameHighlanderLogo"; TIdent "AC_SWIFT_PRIVATE";
                    TPunct "="; TObjCString "HighlanderLogo"; TPunct ";"]]
  /\ (List.filter (fun d => negb (declares d)) <$> parse_text Source.header_text)
     = Some [DImport "Foundation/Foundation.h"; DText [];
             DIf (CHasAttribute "swift_private");
             DDefine "AC_SWIFT_PRIVATE" swift_private_attribute;
             DElse;
             DDefine "AC_SWIFT_PRIVATE" [];
             DEndif; DText []; DText []; DText [];
             DUndef "AC_SWIFT_PRIVATE"].
Proof.
  rewrite header_unit_spec, parse_header. repeat split.
Qed.

(** C5: the identifier of the constant is the prefix "ACImageName"
    followed by the catalog name of the resource, and that catalog name is
    the constant's value. *)
Theorem name_derived_from_resource tc :
  exists d r,
    ACImageNameHighlanderLogo_decl tc = Some d
    /\ Doc.resource_names Source.header_text = [r]
    /\ r = "HighlanderLogo"
    /\ d_name d = "ACImageName" +:+ r
    /\ d_name d = "ACImageNameHighlanderLogo"
    /\ eval_init (d_init d) = VNSString r.
Proof.
  eexists _, "HighlanderLogo". rewrite constant_decl_spec, resource_names_spec.
  repeat split.
Qed.

(** C8: the value of the constant is a string object, not [nil], and the
    string is not empty: it has 14 characters. *)
Theorem value_not_nil_not_empty tc :
  exists s,
    ACImageNameHighlanderLogo tc = Some (VNSString s)
    /\ VNSString s <> VNil
    /\ s <> ""
    /\ String.length s = 14
    /\ 0 < String.length s.
Proof.
  exists "HighlanderLogo". rewrite constant_value_spec.
  repeat split; try discriminate. cbn. lia.
Qed.

(** C9: take a compilation where [__has_attribute(swift_private)] holds
    and one where it does not.  Both give the constant the value
    "HighlanderLogo"; the two declarations agree in everything but the
    attribute list, that is, in everything but visibility. *)
Theorem value_independent_of_capability tc1 tc2 :
  has_attribute tc1 "swift_private" = true ->
  has_attribute tc2 "swift_private" = false ->
  ACImageNameHighlanderLogo tc1 = Some (VNSString "HighlanderLogo")
  /\ ACImageNameHighlanderLogo tc2 = Some (VNSString "HighlanderLogo")
  /\ (without_attrs <$> ACImageNameHighlanderLogo_decl tc1)
     = (without_attrs <$> ACImageNameHighlanderLogo_decl tc2)
  /\ (visibility_of <$> ACImageNameHighlanderLogo_decl tc1) = Some SwiftPrivate
  /\ (visibility_of <$> ACImageNameHighlanderLogo_decl tc2) = Some SwiftDefault.
Proof.
  intros H1 H2. rewrite !constant_value_spec, !constant_decl_spec, H1, H2.
  repeat split.
Qed.

Lemma value_independent_of_capability_witness :
  has_attribute swift_toolchain "swift_private" = true
  /\ has_attribute plain_toolchain "swift_private" = false
  /\ ACImageNameHighlanderLogo swift_toolchain = Some (VNSString "HighlanderLogo")
  /\ ACImageNameHighlanderLogo plain_toolchain = Some (VNSString "HighlanderLogo")
  /\ (without_attrs <$> ACImageNameHighlanderLogo_decl swift_toolchain)
     = (without_attrs <$> ACImageNameHighlanderLogo_decl plain_toolchain)
  /\ (visibility_of <$> ACImageNameHighlanderLogo_decl swift_toolchain) = Some SwiftPrivate
  /\ (visibility_of <$> ACImageNameHighlanderLogo_decl plain_toolchain) = Some SwiftDefault.
Proof.
  split; [reflexivity|]. split; [reflexivity|].
  apply (value_independent_of_capability swift_toolchain plain_toolchain); reflexivity.
Defined.

(** ** What inclusion leaves behind *)

(** C7: including the header has no effect beyond the one constant.  For
    every toolchain and every macro table [m] the including file has built
    up (as long as it has not redefined the words the header is written
    in), the unit gains the import of Foundation and the single variable
    [ACImageNameHighlanderLogo] with a literal initialiser, nothing that is
    not a variable, and the macro table afterwards is [m] without
    [AC_SWIFT_PRIVATE]: the helper macro is undefined again, and a table
    that did not define it is returned as it was. *)
Theorem inclusion_frame tc m :
  clean m = true ->
  exists u,
    compile tc m Source.header_text = Some u
    /\ u_items u
       = [IVar (Declaration (Some Static) (TPointer (TNamed "NSString" false) true)
                  "ACImageNameHighlanderLogo"
                  (if has_attribute tc "swift_private" then ["swift_private"] else [])
                  (Some (IObjCString "HighlanderLogo")))]
    /\ u_imports u = ["Foundation/Foundation.h"]
    /\ u_macros u = delete "AC_SWIFT_PRIVATE" m
    /\ u_macros u !! "AC_SWIFT_PRIVATE" = None
    /\ (m !! "AC_SWIFT_PRIVATE" = None -> u_macros u = m).
Proof.
  intros Hm. eexists. split; [apply compile_header, Hm|].
  cbn [u_items u_imports u_macros]. repeat split.
  - apply lookup_delete_eq.
  - apply delete_id.
Qed.

Lemma inclusion_frame_witness :
  clean includer_macros = true
  /\ exists u,
       compile swift_toolchain includer_macros Source.header_text = Some u
       /\ u_items u
          = [IVar (Declaration (Some Static) (TPointer (TNamed "NSString" false) true)
                     "ACImageNameHighlanderLogo" ["swift_private"]
                     (Some (IObjCString "HighlanderLogo")))]
       /\ u_imports u = ["Foundation/Foundation.h"]
       /\ u_macros u = delete "AC_SWIFT_PRIVATE" includer_macros
       /\ u_macros u !! "AC_SWIFT_PRIVATE" = None
       /\ (includer_macros !! "AC_SWIFT_PRIVATE" = None -> u_macros u = includer_macros).
Proof.
  split; [vm_compute; reflexivity|].
  apply (inclusion_frame swift_toolchain includer_macros). vm_compute. reflexivity.
Defined.

(** ** Execution against the unit *)

Lemma find_var_cons x d ds :
  find_var x (d :: ds) = if String.eqb (d_name d) x then Some d else find_var x ds.
Proof. reflexivity. Qed.

(** Every declared object has a slot in the initial store. *)
Lemma initial_declared ds x :
  declared ds x = true -> is_Some (initial ds !! x).
Proof.
  unfold declared. induction ds as [|d ds IH]; [discriminate|].
  rewrite find_var_cons. cbn [initial foldr]. fold (initial ds).
  destruct (String.eqb (d_name d) x) eqn:E.
  - apply String.eqb_eq in E. subst x. intros _.
    rewrite lookup_insert_eq. eauto.
  - apply String.eqb_neq in E. intros H.
    rewrite lookup_insert_ne by assumption. apply IH, H.
Qed.

Lemma assignable_declared ds x : assignable ds x = true -> declared ds x = true.
Proof. unfold assignable, declared. destruct (find_var x ds); [reflexivity|discriminate]. Qed.

Lemma eval_ok ds (s : gmap string value) e :
  (forall x, declared ds x = true -> is_Some (s !! x)) ->
  expr_ok ds e = true -> is_Some (eval s e).
Proof.
  intros Hs. destruct e as [v|x]; cbn [expr_ok eval]; [eauto|apply Hs].
Qed.

(** An accepted program runs to its end, and an object that is not
    assignable keeps its value at every point on the way. *)
Lemma states_preserve ds c v p :
  assignable ds c = false ->
  forall s : gmap string value,
    s !! c = Some v ->
    (forall x, declared ds x = true -> is_Some (s !! x)) ->
    accepted ds p = true ->
    length (states s p) = S (length p)
    /\ Forall (fun s' : gmap string value => s' !! c = Some v) (states s p).
Proof.
  intros Hc. unfold accepted.
  induction p as [|st p IH]; intros s Hv Hs Hp.
  - cbn. split; [reflexivity|]. repeat constructor. exact Hv.
  - cbn [forallb] in Hp. apply andb_true_iff in Hp as [Hst Hp].
    cbn [states].
    destruct st as [x e|e]; cbn [stmt_ok exec_stmt] in Hst |- *.
    + apply andb_true_iff in Hst as [Hx He].
      destruct (eval_ok ds s e Hs He) as [w Hw]. rewrite Hw.
      cbn [mbind option_bind].
      assert (Hne : x <> c) by (intros ->; congruence).
      destruct (IH (<[x := w]> s)) as [Hlen Hall].
      * rewrite lookup_insert_ne by assumption. exact Hv.
      * intros y Hy. destruct (decide (x = y)) as [->|Hxy].
        -- rewrite lookup_insert_eq. eauto.
        -- rewrite lookup_insert_ne by assumption. apply Hs, Hy.
      * exact Hp.
      * split; [cbn [length]; rewrite Hlen; reflexivity|].
        constructor; assumption.
    + destruct (eval_ok ds s e Hs Hst) as [w Hw]. rewrite Hw.
      cbn [mbind option_bind].
      destruct (IH s Hv Hs Hp) as [Hlen Hall].
      split; [cbn [length]; rewrite Hlen; reflexivity|].
      constructor; assumption.
Qed.

(** C4: the constant is never changed at run time.  Put any further
    declarations [extra] after the header and run any program the compiler
    accepts against them: the program runs through, and at every point of
    the execution [ACImageNameHighlanderLogo] holds "HighlanderLogo".  The
    reason is the [const] after the star, which makes the object itself
    unassignable. *)
Theorem constant_never_mutated tc extra p :
  accepted (header_decls tc ++ extra) p = true ->
  assignable (header_decls tc ++ extra) "ACImageNameHighlanderLogo" = false
  /\ length (states (initial (header_decls tc ++ extra)) p) = S (length p)
  /\ Forall (fun s : gmap string value =>
               s !! "ACImageNameHighlanderLogo" = Some (VNSString "HighlanderLogo"))
            (states (initial (header_decls tc ++ extra)) p).
Proof.
  intros Hp.
  assert (Hc : assignable (header_decls tc ++ extra) "ACImageNameHighlanderLogo" = false).
  { rewrite header_decls_spec. reflexivity. }
  split; [exact Hc|].
  apply (states_preserve _ _ _ _ Hc); [|apply initial_declared|exact Hp].
  rewrite header_decls_spec. cbn [app initial foldr d_name d_init eval_init].
  apply lookup_insert_eq.
Qed.

Lemma constant_never_mutated_witness :
  accepted (header_decls swift_toolchain ++ client_decls) client_program = true
  /\ assignable (header_decls swift_toolchain ++ client_decls)
       "ACImageNameHighlanderLogo" = false
  /\ length (states (initial (header_decls swift_toolchain ++ client_decls))
               client_program) = S (length client_program)
  /\ Forall (fun s : gmap string value =>
               s !! "ACImageNameHighlanderLogo" = Some (VNSString "HighlanderLogo"))
            (states (initial (header_decls swift_toolchain ++ client_decls))
               client_program).
Proof.
  split; [vm_compute; reflexivity|].
  apply (constant_never_mutated swift_toolchain client_decls client_program).
  vm_compute. reflexivity.
Defined.

(** ** Linking units that include the header *)

Lemma exports_app ds1 ds2 : exports (ds1 ++ ds2) = exports ds1 ++ exports ds2.
Proof. unfold exports. rewrite List.filter_app, fmap_app. reflexivity. Qed.

Lemma exports_header tc : exports (header_decls tc) = [].
Proof. rewrite header_decls_spec. reflexivity. Qed.

Lemma duplicate_symbols_empty (objs : list (list string)) :
  Forall (fun o => o = []) objs -> duplicate_symbols objs = [].
Proof.
  induction 1 as [|o objs Ho _ IH]; [reflexivity|].
  subst o. cbn [duplicate_symbols List.filter app]. exact IH.
Qed.

(** C10: the constant is [static] and so has internal linkage.  Every
    unit that includes the header keeps its own copy as a local symbol and
    exports no symbol for it.  Hence any number of units made of the header
    link without a duplicate symbol, and in units that declare more the
    header adds nothing to the duplicates the linker reports. *)
Theorem static_never_collides :
  (forall tc,
      (linkage_of <$> ACImageNameHighlanderLogo_decl tc) = Some Internal
      /\ locals (header_decls tc) = ["ACImageNameHighlanderLogo"]
      /\ exports (header_decls tc) = [])
  /\ (forall tcs : list toolchain,
         link ((fun tc => exports (header_decls tc)) <$> tcs) = Linked)
  /\ (forall units : list (toolchain * list declaration),
         ("ACImageNameHighlanderLogo"
            ∉ duplicate_symbols ((fun u => exports (header_decls u.1)) <$> units))
         /\ link ((fun u => exports (header_decls u.1 ++ u.2)) <$> units)
            = link ((fun u => exports u.2) <$> units)).
Proof.
  split; [|split].
  - intros tc. rewrite constant_decl_spec, header_decls_spec. repeat split.
  - intros tcs. unfold link. rewrite duplicate_symbols_empty; [reflexivity|].
    apply Forall_fmap, Forall_forall. intros tc _. apply exports_header.
  - intros units. split.
    + rewrite duplicate_symbols_empty; [apply not_elem_of_nil|].
      apply Forall_fmap, Forall_forall. intros u _. apply exports_header.
    + f_equal. apply list_fmap_ext. intros _ u _.
      rewrite exports_app, exports_header. reflexivity.
Qed.

(** ** Inclusion from any preprocessor state *)

(** The directives of the header, run in live text. *)
Lemma run_live tc st ds :
  parse_text Source.header_text = Some ds ->
  live st = true ->
  macros st !! "__has_attribute" = None ->
  macros st !! "swift_private" = None ->
  run tc st ds =
  Some (PP (delete "AC_SWIFT_PRIVATE" (macros st)) (conds st)
           (add_import "Foundation/Foundation.h" (imports st))
           (out st ++
            expand_line
              (<["AC_SWIFT_PRIVATE" :=
                   if has_attribute tc "swift_private"
                   then swift_private_attribute else []]> (macros st))
              [TIdent "static"; TIdent "NSString"; TPunct "*"; TIdent "const";
               TIdent "ACImageNameHighlanderLogo"; TIdent "AC_SWIFT_PRIVATE";
               TPunct "="; TObjCString "HighlanderLogo"; TPunct ";"])).
Proof.
  intros Hds Hl H1 H2. rewrite parse_header in Hds. injection Hds as <-.
  destruct st as [m c i o]. cbn [macros] in H1, H2.
  pose proof (eval_query tc m H1 H2) as Hq.
  destruct c as [|[[] [] []] c']; try discriminate Hl;
    destruct (has_attribute tc "swift_private") eqn:Hb;
    pp_steps Hq Hb; rewrite delete_insert_eq; reflexivity.
Qed.

(** The directives of the header, run in skipped text. *)
Lemma run_dead tc st ds :
  parse_text Source.header_text = Some ds ->
  live st = false ->
  run tc st ds = Some st.
Proof.
  intros Hds Hl. rewrite parse_header in Hds. injection Hds as <-.
  destruct st as [m c i o].
  destruct c as [|[[] [] []] c']; try discriminate Hl;
    pp_steps Hl Hl; reflexivity.
Qed.

(** A controlling expression that macro replacement has spoilt. *)
Lemma eval_spoilt tc m n :
  m !! "__has_attribute" = Some [TNumber n]
  \/ (m !! "__has_attribute" = None /\ m !! "swift_private" = Some []) ->
  eval_cond tc m (CHasAttribute "swift_private") = None.
Proof.
  intros H. unfold eval_cond, expand_line, cond_tokens.
  destruct (size m) as [|k] eqn:Hk.
  { apply map_size_empty_inv in Hk. subst m.
    destruct H as [H|[_ H]]; rewrite lookup_empty in H; discriminate. }
  cbn [expand flat_map].
  destruct H as [H|[H1 H2]].
  - rewrite H. destruct k; reflexivity.
  - rewrite H1, H2, expand_nil. reflexivity.
Qed.

Lemma run_spoilt tc st ds :
  parse_text Source.header_text = Some ds ->
  live st = true ->
  eval_cond tc (macros st) (CHasAttribute "swift_private") = None ->
  run tc st ds = None.
Proof.
  intros Hds Hl Hq. rewrite parse_header in Hds. injection Hds as <-.
  destruct st as [m c i o]. cbn [macros] in Hq.
  destruct c as [|[[] [] []] c']; try discriminate Hl;
    pp_steps Hq Hq; reflexivity.
Qed.

Lemma run_app tc st ds1 ds2 :
  run tc st (ds1 ++ ds2) = run tc st ds1 ≫= fun st' => run tc st' ds2.
Proof.
  revert st. induction ds1 as [|d ds1 IH]; intros st; [reflexivity|].
  cbn [app run]. destruct (step tc st d) as [st1|]; [|reflexivity].
  cbn [mbind option_bind]. apply IH.
Qed.

Lemma parse_twice :
  parse_text header_twice = (fun ds => ds ++ ds) <$> parse_text Source.header_text.
Proof. vm_compute. reflexivity. Qed.

Lemma parse_declaration_twice (b : bool) :
  parse_items
    (([TIdent "static"; TIdent "NSString"; TPunct "*"; TIdent "const";
       TIdent "ACImageNameHighlanderLogo"]
      ++ (if b then swift_private_attribute else [])
      ++ [TPunct "="; TObjCString "HighlanderLogo"; TPunct ";"])
     ++ ([TIdent "static"; TIdent "NSString"; TPunct "*"; TIdent "const";
          TIdent "ACImageNameHighlanderLogo"]
         ++ (if b then swift_private_attribute else [])
         ++ [TPunct "="; TObjCString "HighlanderLogo"; TPunct ";"])) =
  Some [IVar (Declaration (Some Static) (TPointer (TNamed "NSString" false) true)
                "ACImageNameHighlanderLogo"
                (if b then ["swift_private"] else [])
                (Some (IObjCString "HighlanderLogo")));
        IVar (Declaration (Some Static) (TPointer (TNamed "NSString" false) true)
                "ACImageNameHighlanderLogo"
                (if b then ["swift_private"] else [])
                (Some (IObjCString "HighlanderLogo")))].
Proof. destruct b; vm_compute; reflexivity. Qed.

(** The header's text read twice, after a table that leaves the query
    alone: the second reading repeats the output of the first. *)
Lemma preprocess_twice tc m :
  m !! "__has_attribute" = None ->
  m !! "swift_private" = None ->
  preprocess tc m header_twice =
  Some (PP (delete "AC_SWIFT_PRIVATE" m) [] ["Foundation/Foundation.h"]
           (expand_line
              (<["AC_SWIFT_PRIVATE" :=
                   if has_attribute tc "swift_private"
                   then swift_private_attribute else []]> m)
              [TIdent "static"; TIdent "NSString"; TPunct "*"; TIdent "const";
               TIdent "ACImageNameHighlanderLogo"; TIdent "AC_SWIFT_PRIVATE";
               TPunct "="; TObjCString "HighlanderLogo"; TPunct ";"]
            ++
            expand_line
              (<["AC_SWIFT_PRIVATE" :=
                   if has_attribute tc "swift_private"
                   then swift_private_attribute else []]> m)
              [TIdent "static"; TIdent "NSString"; TPunct "*"; TIdent "const";
               TIdent "ACImageNameHighlanderLogo"; TIdent "AC_SWIFT_PRIVATE";
               TPunct "="; TObjCString "HighlanderLogo"; TPunct ";"])).
Proof.
  intros H1 H2. unfold preprocess. rewrite parse_twice.
  pose proof parse_header as Hds.
  destruct (parse_text Source.header_text) as [ds|] eqn:E; [|discriminate].
  cbn [fmap option_fmap option_map mbind option_bind].
  rewrite run_app, (run_live tc (enter m) ds E eq_refl H1 H2).
  cbn [mbind option_bind].
  erewrite (run_live tc _ ds E); [|reflexivity| |];
    cbn [enter macros conds imports out app].
  - rewrite delete_delete_eq, insert_delete_eq. reflexivity.
  - rewrite lookup_delete_ne by discriminate. exact H1.
  - rewrite lookup_delete_ne by discriminate. exact H2.
Qed.



(** X2: read inside a conditional block that is being skipped, the header
    does nothing at all: no import is recorded, no macro is defined or
    removed, no token is emitted. *)
Theorem skipped_inclusion_no_effect tc st :
  live st = false ->
  parse_text Source.header_text ≫= run tc st = Some st.
Proof.
  intros Hl. pose proof parse_header as Hds.
  destruct (parse_text Source.header_text) as [ds|] eqn:E; [|discriminate].
  cbn [mbind option_bind]. apply (run_dead tc st ds E Hl).
Qed.

Lemma skipped_inclusion_no_effect_witness :
  live dead_state = false
  /\ parse_text Source.header_text ≫= run swift_toolchain dead_state = Some dead_state.
Proof.
  split; [reflexivity|].
  apply (skipped_inclusion_no_effect swift_toolchain dead_state). reflexivity.
Defined.



(** X4: after macros that leave the identifiers of the [#if] line alone,
    what the including file had defined [AC_SWIFT_PRIVATE] as is never
    consulted.  The header's own definition replaces it before the one
    use, so preprocessing and compiling give the same result as without
    that definition. *)
Theorem prior_definition_ignored tc m b :
  query_intact m = true ->
  preprocess tc (<["AC_SWIFT_PRIVATE" := b]> m) Source.header_text
  = preprocess tc m Source.header_text
  /\ compile tc (<["AC_SWIFT_PRIVATE" := b]> m) Source.header_text
     = compile tc m Source.header_text.
Proof.
  intros Hq. apply query_words in Hq as [H1 H2].
  assert (H : preprocess tc (<["AC_SWIFT_PRIVATE" := b]> m) Source.header_text
              = preprocess tc m Source.header_text).
  { rewrite (preprocess_header tc m H1 H2).
    rewrite preprocess_header
      by (rewrite lookup_insert_ne by discriminate; assumption).
    rewrite delete_insert_eq, insert_insert_eq. reflexivity. }
  split; [exact H|]. unfold compile. rewrite H. reflexivity.
Qed.

Lemma prior_definition_ignored_witness :
  query_intact (<["DEBUG" := [TNumber "1"]]> ∅) = true
  /\ preprocess swift_toolchain includer_macros Source.header_text
     = preprocess swift_toolchain (<["DEBUG" := [TNumber "1"]]> ∅) Source.header_text
  /\ compile swift_toolchain includer_macros Source.header_text
     = compile swift_toolchain (<["DEBUG" := [TNumber "1"]]> ∅) Source.header_text.
Proof.
  split; [vm_compute; reflexivity|].
  pose proof (prior_definition_ignored swift_toolchain
                (<["DEBUG" := [TNumber "1"]]> ∅) [TIdent "extern"]) as H.
  replace (<["AC_SWIFT_PRIVATE" := [TIdent "extern"]]> (<["DEBUG" := [TNumber "1"]]> ∅))
    with includer_macros in H by (apply insert_insert_ne; discriminate).
  apply H. vm_compute. reflexivity.
Defined.



(** X6: the header carries no guard against being read twice.  If its
    text is processed twice in a row, as a repeated textual inclusion would
    do, the preprocessor emits the declaration of the constant a second
    time (same macro table and imports as after one reading), the two
    declarations both carry an initialiser, and the compiler rejects the
    unit as a redefinition. *)
Theorem no_include_guard tc m :
  clean m = true ->
  exists st1 st2,
    preprocess tc m Source.header_text = Some st1
    /\ preprocess tc m header_twice = Some st2
    /\ out st2 = out st1 ++ out st1
    /\ macros st2 = macros st1
    /\ imports st2 = imports st1
    /\ (variables <$> parse_items (out st2))
       = Some [Declaration (Some Static) (TPointer (TNamed "NSString" false) true)
                 "ACImageNameHighlanderLogo"
                 (if has_attribute tc "swift_private" then ["swift_private"] else [])
                 (Some (IObjCString "HighlanderLogo"));
               Declaration (Some Static) (TPointer (TNamed "NSString" false) true)
                 "ACImageNameHighlanderLogo"
                 (if has_attribute tc "swift_private" then ["swift_private"] else [])
                 (Some (IObjCString "HighlanderLogo"))]
    /\ compile tc m header_twice = None.
Proof.
  intros Hm. apply clean_words in Hm.
  repeat (let H := fresh "Hw" in
          inversion Hm as [|? ? H Hm']; subst; clear Hm; rename Hm' into Hm).
  clear Hm.
  assert (Hparse :
    parse_items
      (expand_line
         (<["AC_SWIFT_PRIVATE" :=
              if has_attribute tc "swift_private"
              then swift_private_attribute else []]> m)
         [TIdent "static"; TIdent "NSString"; TPunct "*"; TIdent "const";
          TIdent "ACImageNameHighlanderLogo"; TIdent "AC_SWIFT_PRIVATE";
          TPunct "="; TObjCString "HighlanderLogo"; TPunct ";"]
       ++
       expand_line
         (<["AC_SWIFT_PRIVATE" :=
              if has_attribute tc "swift_private"
              then swift_private_attribute else []]> m)
         [TIdent "static"; TIdent "NSString"; TPunct "*"; TIdent "const";
          TIdent "ACImageNameHighlanderLogo"; TIdent "AC_SWIFT_PRIVATE";
          TPunct "="; TObjCString "HighlanderLogo"; TPunct ";"])
    = Some [IVar (Declaration (Some Static) (TPointer (TNamed "NSString" false) true)
                    "ACImageNameHighlanderLogo"
                    (if has_attribute tc "swift_private" then ["swift_private"] else [])
                    (Some (IObjCString "HighlanderLogo")));
            IVar (Declaration (Some Static) (TPointer (TNamed "NSString" false) true)
                    "ACImageNameHighlanderLogo"
                    (if has_attribute tc "swift_private" then ["swift_private"] else [])
                    (Some (IObjCString "HighlanderLogo")))]).
  { change [TIdent "static"; TIdent "NSString"; TPunct "*"; TIdent "const";
            TIdent "ACImageNameHighlanderLogo"; TIdent "AC_SWIFT_PRIVATE";
            TPunct "="; TObjCString "HighlanderLogo"; TPunct ";"]
      with ([TIdent "static"; TIdent "NSString"; TPunct "*"; TIdent "const";
             TIdent "ACImageNameHighlanderLogo"]
            ++ TIdent "AC_SWIFT_PRIVATE"
            :: [TPunct "="; TObjCString "HighlanderLogo"; TPunct ";"]).
    rewrite expand_around.
    - apply parse_declaration_twice.
    - vm_compute. intros H.
      repeat (inversion H as [|? ? ? H']; subst; clear H; rename H' into H).
    - vm_compute. intros H. inversion H.
    - repeat constructor; assumption.
    - constructor.
    - destruct (has_attribute tc "swift_private"); repeat constructor; assumption. }
  eexists _, _.
  split; [apply preprocess_header; assumption|].
  split; [apply preprocess_twice; assumption|].
  cbn [out macros imports].
  split; [reflexivity|]. split; [reflexivity|]. split; [reflexivity|].
  split.
  - rewrite Hparse. reflexivity.
  - unfold compile. rewrite preprocess_twice by assumption.
    cbn [mbind option_bind out]. rewrite Hparse.
    cbn [mbind option_bind]. reflexivity.
Qed.

Lemma no_include_guard_witness :
  clean includer_macros = true
  /\ compile swift_toolchain includer_macros header_twice = None
  /\ (out <$> preprocess swift_toolchain includer_macros header_twice)
     = ((fun st => out st ++ out st)
          <$> preprocess swift_toolchain includer_macros Source.header_text).
Proof.
  split; [vm_compute; reflexivity|].
  destruct (no_include_guard swift_toolchain includer_macros)
    as (st1 & st2 & H1 & H2 & Ho & _ & _ & _ & Hc);
    [vm_compute; reflexivity|].
  split; [exact Hc|]. rewrite H1, H2. cbn [fmap option_fmap option_map].
  rewrite Ho. reflexivity.
Defined.

(** X7: the capability query is open to the macros of the including
    file.  In live text, if [__has_attribute] has been defined as a number,
    or [swift_private] has been defined as nothing, line 3 is no longer a
    query after macro replacement and the header fails there: preprocessing
    stops with an error instead of a unit. *)
Theorem spoilt_query_fails tc st n :
  live st = true ->
  (macros st !! "__has_attribute" = Some [TNumber n]
   \/ (macros st !! "__has_attribute" = None
       /\ macros st !! "swift_private" = Some [])) ->
  parse_text Source.header_text ≫= run tc st = None.
Proof.
  intros Hl H. pose proof parse_header as Hds.
  destruct (parse_text Source.header_text) as [ds|] eqn:E; [|discriminate].
  cbn [mbind option_bind].
  apply (run_spoilt tc st ds E Hl). apply (eval_spoilt tc (macros st) n H).
Qed.

Lemma spoilt_query_fails_witness :
  live (enter broken_macros) = true
  /\ (macros (enter broken_macros) !! "__has_attribute" = Some [TNumber "1"]
      \/ (macros (enter broken_macros) !! "__has_attribute" = None
          /\ macros (enter broken_macros) !! "swift_private" = Some []))
  /\ parse_text Source.header_text ≫= run swift_toolchain (enter broken_macros) = None.
Proof.
  split; [reflexivity|].
  split; [right; split; vm_compute; reflexivity|].
  apply (spoilt_query_fails swift_toolchain (enter broken_macros) "1");
    [reflexivity|right; split; vm_compute; reflexivity].
Defined.
